(** * ReferenceArrayField: a shallow embedding

    [packages/ra-ui-materialui/src/field/ReferenceArrayField.tsx] holds two
    function components.  [ReferenceArrayField] checks that it was given a
    single child, calls the list-controller hook and wraps the memoized view
    in a list-context provider.  [ReferenceArrayFieldView] shows a progress
    bar until the controller reports [loaded], and afterwards clones the child
    (and the optional pagination element) with the fetched list injected.

    The props bag is a JavaScript object, modelled as a finite map from
    property names to JavaScript values.  Rendering is a computation that may
    throw and may call hooks; it is modelled as a term of the free monad
    [Render], run against an environment that answers the hooks. *)

From stdpp Require Import gmap strings list fin_maps.

#[local] Set Warnings "-register-all".
#[local] Open Scope string_scope.

(** ** JavaScript values *)

(** The component types that occur in the file, and [Custom] for the types of
    the elements a caller passes in ([<Datagrid>], [<Pagination>], ...). *)
Inductive component : Type :=
| Fragment
| LinearProgress
| ListContextProvider
| PureReferenceArrayFieldView
| Custom (name : string).

(** The values a props bag can hold.  Numbers are the integral ones ([page],
    [perPage], [total], ids).  [VElement type config children] is the element
    [React.createElement(type, config, ...children)] returns, that is what a
    JSX tag evaluates to; [VClone element config] is the element
    [React.cloneElement(element, config)] returns. *)
Inductive value : Type :=
| VUndefined
| VNull
| VBool (b : bool)
| VNum (n : Z)
| VStr (s : string)
| VFun (name : string)
| VArr (items : list value)
| VObj (fields : gmap string value)
| VElement (type : component) (config : gmap string value)
    (children : list value)
| VClone (element : value) (config : gmap string value).

Abbreviation Props := (gmap string value).

(** [o.k]: reading a property that is not there gives [undefined]. *)
Definition get (k : string) (o : Props) : value := default VUndefined (o !! k).

(** [v === undefined] *)
Definition is_undefined (v : value) : bool :=
  match v with VUndefined => true | _ => false end.

(** JavaScript's ToBoolean. *)
Definition truthy (v : value) : bool :=
  match v with
  | VUndefined | VNull => false
  | VBool b => b
  | VNum n => negb (n =? 0)%Z
  | VStr s => negb (String.eqb s "")
  | VFun _ | VArr _ | VObj _ | VElement _ _ _ | VClone _ _ => true
  end.

(** [const { k1, ..., kn, ...rest } = o]: [rest] is [o] without the named
    properties. *)
Definition omit (ks : list string) (o : Props) : Props := foldr delete o ks.
Arguments omit : simpl never.

(** ** Completions and the render monad *)

(** A JavaScript call either returns or throws. *)
Inductive completion (A : Type) : Type :=
| Normal (a : A)
| Thrown (message : string).
Arguments Normal {A} a.
Arguments Thrown {A} message.

(** The class names [useStyles] returns for the style sheet of this file,
    whose only rule is [progress]. *)
Record Classes : Type := { progress : string }.

(** A render: it returns, throws, or calls one of the two hooks of the file
    and goes on with the hook's answer. *)
Inductive Render (A : Type) : Type :=
| Ret (a : A)
| Throw (message : string)
| UseReferenceArrayFieldController (options : Props) (k : Props -> Render A)
| UseStyles (props : Props) (k : Classes -> Render A).
Arguments Ret {A} a.
Arguments Throw {A} message.
Arguments UseReferenceArrayFieldController {A} options k.
Arguments UseStyles {A} props k.

Fixpoint bind {A B : Type} (m : Render A) (f : A -> Render B) : Render B :=
  match m with
  | Ret a => f a
  | Throw e => Throw e
  | UseReferenceArrayFieldController o k =>
      UseReferenceArrayFieldController o (fun r => bind (k r) f)
  | UseStyles p k => UseStyles p (fun c => bind (k c) f)
  end.

#[export] Instance Render_ret : MRet Render := @Ret.
#[export] Instance Render_bind : MBind Render :=
  fun A B f m => bind m f.

Definition lift {A : Type} (c : completion A) : Render A :=
  match c with Normal a => Ret a | Thrown e => Throw e end.

Definition useReferenceArrayFieldController (options : Props) : Render Props :=
  UseReferenceArrayFieldController options Ret.

Definition useStyles (props : Props) : Render Classes := UseStyles props Ret.

(** [a && b]: [b] is evaluated only when [a] is truthy. *)
Definition js_and (a : value) (b : Render value) : Render value :=
  if truthy a then b else Ret a.

(** The environment of a render: what the two hooks answer. *)
Record Hooks : Type := {
  controller : Props -> Props;
  styles : Props -> Classes
}.

Inductive HookCall : Type :=
| ControllerCall (options : Props)
| StylesCall (props : Props).

(** Running a render gives the hook calls it made, in order, and how it
    completed. *)
Fixpoint run {A : Type} (h : Hooks) (m : Render A)
  : list HookCall * completion A :=
  match m with
  | Ret a => ([], Normal a)
  | Throw e => ([], Thrown e)
  | UseReferenceArrayFieldController o k =>
      let r := run h (k (controller h o)) in (ControllerCall o :: r.1, r.2)
  | UseStyles p k =>
      let r := run h (k (styles h p)) in (StylesCall p :: r.1, r.2)
  end.

Definition trace {A : Type} (h : Hooks) (m : Render A) : list HookCall :=
  (run h m).1.
Definition outcome {A : Type} (h : Hooks) (m : Render A) : completion A :=
  (run h m).2.

(** ** The part of React the file uses *)

Module React.

(** An object made by [createElement] or [cloneElement]. *)
Definition isValidElement (v : value) : bool :=
  match v with VElement _ _ _ | VClone _ _ => true | _ => false end.

(** The children React renders nothing for. *)
Definition isEmptyNode (v : value) : bool :=
  match v with VUndefined | VNull | VBool _ => true | _ => false end.

Definition invalid_child : string :=
  "Objects are not valid as a React child".

Module Children.

(** [traverseAllChildrenImpl] with a callback that does nothing: an
    element, a string, a number and an empty node count for one, an
    array for the sum of its items, a function for nothing, and a plain
    object is refused. *)
Fixpoint traverse (children : value) : completion nat :=
  match children with
  | VArr items =>
      (fix go (l : list value) : completion nat :=
         match l with
         | [] => Normal 0
         | child :: l' =>
             match traverse child with
             | Normal n =>
                 match go l' with
                 | Normal m => Normal (n + m)
                 | Thrown e => Thrown e
                 end
             | Thrown e => Thrown e
             end
         end) items
  | VObj _ => Thrown invalid_child
  | VFun _ => Normal 0
  | _ => Normal 1
  end.

(** [React.Children.count]: [null] and [undefined] have no child. *)
Definition count (children : value) : completion nat :=
  match children with
  | VUndefined | VNull => Normal 0
  | _ => traverse children
  end.

Definition only_error : string :=
  "React.Children.only expected to receive a single React element child.".

(** [React.Children.only] *)
Definition only (children : value) : completion value :=
  if isValidElement children then Normal children else Thrown only_error.

End Children.

Definition clone_error : string :=
  "React.cloneElement(...): The argument must be a React element".

(** [React.cloneElement(element, config)], which refuses [null] and
    [undefined]. *)
Definition cloneElement (element : value) (config : Props)
  : completion value :=
  match element with
  | VUndefined | VNull => Thrown clone_error
  | _ => Normal (VClone element config)
  end.

(** The children of an element that React renders. *)
Definition rendered (v : value) : list value :=
  match v with
  | VElement _ _ children =>
      List.filter (fun c => negb (isEmptyNode c)) children
  | _ => []
  end.

End React.

(** ** The two components *)

Definition usage_error : string :=
  "<ReferenceArrayField> only accepts a single child (like <Datagrid>)".

Definition ReferenceArrayField (props : Props) : Render value :=
  let basePath := get "basePath" props in
  let children := get "children" props in
  let filter := get "filter" props in
  let page :=
    if is_undefined (get "page" props) then VNum 1 else get "page" props in
  let perPage := get "perPage" props in
  let record := get "record" props in
  let reference := get "reference" props in
  let resource := get "resource" props in
  let sort := get "sort" props in
  let source := get "source" props in
  n ← lift (React.Children.count children);
  if negb (n =? 1)%nat then Throw usage_error
  else
    controllerProps ← useReferenceArrayFieldController
      {[ "basePath" := basePath;
         "filter" := filter;
         "page" := page;
         "perPage" := perPage;
         "record" := record;
         "reference" := reference;
         "resource" := resource;
         "sort" := sort;
         "source" := source ]};
    Ret (VElement ListContextProvider {[ "value" := VObj controllerProps ]}
           [VElement PureReferenceArrayFieldView (controllerProps ∪ props) []]).

Section View.

(** [./sanitizeRestProps] is a module of its own; the view only passes an
    object through it. *)
Variable sanitizeRestProps : Props -> Props.

Definition ReferenceArrayFieldView (props : Props) : Render value :=
  let children := get "children" props in
  let pagination := get "pagination" props in
  let className := get "className" props in
  let reference := get "reference" props in
  let rest :=
    omit ["children"; "pagination"; "className"; "reference"] props in
  classes ← useStyles props;
  if negb (truthy (get "loaded" props)) then
    Ret (VElement LinearProgress
           {[ "className" := VStr (progress classes) ]} [])
  else
    child ← lift (React.Children.only children);
    cloned ← lift (React.cloneElement child
                     (<["resource" := reference]>
                        (<["className" := className]>
                           (sanitizeRestProps rest))));
    known ← js_and pagination
              (Ret (VBool (negb (is_undefined (get "total" props)))));
    pager ← js_and known
              (lift (React.cloneElement pagination
                       (sanitizeRestProps rest)));
    Ret (VElement Fragment ∅ [cloned; VStr " "; pager]).

End View.

(** ** What the prop types promise about a view's props bag *)

(** [children: ReactElement] *)
Definition element_child (props : Props) : Prop :=
  React.isValidElement (get "children" props) = true.

(** [pagination?: ReactElement] *)
Definition optional_pagination (props : Props) : Prop :=
  get "pagination" props = VUndefined ∨
  React.isValidElement (get "pagination" props) = true.

(** The pagination element is shown: one was given and the total is known. *)
Definition shows_pagination (props : Props) : bool :=
  React.isValidElement (get "pagination" props)
  && negb (is_undefined (get "total" props)).

(** The object the view spreads into both clones, before it is sanitized. *)
Definition rest_of (props : Props) : Props :=
  omit ["children"; "pagination"; "className"; "reference"] props.

(** The value of [pagination && props.total !== undefined &&
    cloneElement(pagination, sanitizeRestProps(rest))], the third child of
    the fragment. *)
Definition pager_slot (sanitizeRestProps : Props -> Props) (props : Props)
  : value :=
  let pagination := get "pagination" props in
  if truthy pagination then
    if is_undefined (get "total" props) then VBool false
    else VClone pagination (sanitizeRestProps (rest_of props))
  else pagination.

(** The object [ReferenceArrayField] hands to the controller hook. *)
Definition controller_options (props : Props) : Props :=
  {[ "basePath" := get "basePath" props;
     "filter" := get "filter" props;
     "page" := match props !! "page" with
               | None | Some VUndefined => VNum 1
               | Some page => page
               end;
     "perPage" := get "perPage" props;
     "record" := get "record" props;
     "reference" := get "reference" props;
     "resource" := get "resource" props;
     "sort" := get "sort" props;
     "source" := get "source" props ]}.

(** The element [ReferenceArrayField] returns for a controller result. *)
Definition provided_view (props controllerProps : Props) : value :=
  VElement ListContextProvider {[ "value" := VObj controllerProps ]}
    [VElement PureReferenceArrayFieldView (controllerProps ∪ props) []].

(** [part_of v w]: the value [v] sits directly inside [w], as an item, a
    field, a prop, a child, or the original or an injected prop of a clone. *)
Inductive part_of : value → value → Prop :=
| part_item v items :
    v ∈ items → part_of v (VArr items)
| part_field v k fields :
    fields !! k = Some v → part_of v (VObj fields)
| part_prop v k type config children :
    config !! k = Some v → part_of v (VElement type config children)
| part_child v type config children :
    v ∈ children → part_of v (VElement type config children)
| part_original v config :
    part_of v (VClone v config)
| part_injected v k element config :
    config !! k = Some v → part_of v (VClone element config).

(** The rendered nodes are one element, optionally followed by a second
    element, and nothing else. *)
Definition child_then_pagination_only (nodes : list value) : Prop :=
  (∃ c, nodes = [c] ∧ React.isValidElement c = true) ∨
  (∃ c p, nodes = [c; p] ∧ React.isValidElement c = true
          ∧ React.isValidElement p = true).

(** ** Sample data: an order that references products *)

Module Sample.

Definition datagrid : value :=
  VElement (Custom "Datagrid") ∅
    [VElement (Custom "TextField") {[ "source" := VStr "id" ]} []].

Definition pager : value := VElement (Custom "Pagination") ∅ [].

Definition order : value :=
  VObj {[ "id" := VNum 123;
          "product_ids" := VArr [VNum 456; VNum 457; VNum 458] ]}.

(** <ReferenceArrayField reference="products" source="product_ids"> with a
    single <Datagrid> child. *)
Definition field_props : Props :=
  {[ "addLabel" := VBool true;
     "basePath" := VStr "/orders";
     "children" := datagrid;
     "className" := VStr "order-products";
     "record" := order;
     "reference" := VStr "products";
     "resource" := VStr "orders";
     "source" := VStr "product_ids" ]}.

Definition no_child : Props := delete "children" field_props.

Definition two_children : Props :=
  <["children" := VArr [datagrid; datagrid]]> field_props.

Definition loading : Props :=
  {[ "loaded" := VBool false; "ids" := VArr [] ]}.

Definition loaded : Props :=
  {[ "loaded" := VBool true;
     "ids" := VArr [VNum 456; VNum 457; VNum 458];
     "total" := VNum 3 ]}.

Definition hooks : Hooks :=
  {| controller := fun _ => loaded;
     styles := fun _ => {| progress := "RaReferenceArrayField-progress-1" |} |}.

Definition hooks_loading : Hooks :=
  {| controller := fun _ => loading;
     styles := fun _ => {| progress := "RaReferenceArrayField-progress-7" |} |}.

(** A sanitizer that drops the field-level props. *)
Definition sanitize (o : Props) : Props :=
  omit ["addLabel"; "basePath"; "className"; "record"; "resource"; "source"]
    o.

(** The props the view gets: the field's props overridden by the
    controller's. *)
Definition view_loading : Props := loading ∪ field_props.
Definition view_loaded : Props := loaded ∪ field_props.
Definition view_paginated : Props := <["pagination" := pager]> view_loaded.

End Sample.

(** ** Default props

    [ReferenceArrayField.defaultProps = { addLabel: true }].  When React
    creates an element of a component it gives every prop that is undefined
    the component's default, if it has one. *)

Definition ReferenceArrayField_defaultProps : Props :=
  {[ "addLabel" := VBool true ]}.

Definition resolveDefaultProps (defaults props : Props) : Props :=
  merge (fun d p =>
           match d, p with
           | Some v, (None | Some VUndefined) => Some v
           | _, _ => p
           end) defaults props.

(** ** Further sample data: children and pagination off the prop types *)

Module Edge.

(** A lone text child, and a one-element array: each counts for one child,
    neither is an element. *)
Definition text_child : Props :=
  <["children" := VStr "products"]> Sample.field_props.

Definition array_child : Props :=
  <["children" := VArr [Sample.datagrid]]> Sample.field_props.

(** A plain object as child. *)
Definition object_child : Props :=
  <["children" := Sample.order]> Sample.field_props.

(** [pagination={false}] *)
Definition view_unpaginated : Props :=
  <["pagination" := VBool false]> Sample.view_loaded.

(** The caller passes [loaded] itself. *)
Definition caller_loaded : Props :=
  <["loaded" := VBool true]> Sample.field_props.

End Edge.

(** ** Counting children

    JSX gives [children] as undefined for no child, as the child itself for
    one, and as an array for several. *)

Example count_no_child : React.Children.count VUndefined = Normal 0.
Proof. reflexivity. Qed.

Example count_one_child : React.Children.count Sample.datagrid = Normal 1.
Proof. reflexivity. Qed.

Example count_text_child : React.Children.count (VStr "products") = Normal 1.
Proof. reflexivity. Qed.

Example count_two_children :
  React.Children.count (VArr [Sample.datagrid; Sample.pager]) = Normal 2.
Proof. reflexivity. Qed.

Example count_nested_children :
  React.Children.count
    (VArr [VNull; VArr [Sample.datagrid; VNum 2]; VFun "render"]) = Normal 3.
Proof. reflexivity. Qed.

Example count_object_child :
  React.Children.count Sample.order = Thrown React.invalid_child.
Proof. reflexivity. Qed.

(** ** Lemmas on objects and renders *)

Lemma lookup_omit (ks : list string) (o : Props) (k : string) :
  omit ks o !! k = if decide (k ∈ ks) then None else o !! k.
Proof.
  induction ks as [|k' ks IH]; unfold omit in *; cbn [foldr].
  - by rewrite decide_False by apply not_elem_of_nil.
  - destruct (decide (k' = k)) as [->|Hne].
    + rewrite lookup_delete_eq, decide_True; [done | left].
    + rewrite lookup_delete_ne by done. rewrite IH.
      destruct (decide (k ∈ ks)) as [Hin|Hin].
      * rewrite decide_True; [done | by right].
      * rewrite decide_False; [done|].
        intros [Heq|Hin']%elem_of_cons; [by subst | done].
Qed.

Lemma rest_of_lookup (props : Props) (k : string) :
  rest_of props !! k =
    if decide (k ∈ ["children"; "pagination"; "className"; "reference"])
    then None else props !! k.
Proof. apply lookup_omit. Qed.

Lemma truthy_not_nullish (v : value) (c : Props) :
  truthy v = true → React.cloneElement v c = Normal (VClone v c).
Proof. by destruct v. Qed.

Lemma valid_element_truthy (v : value) :
  React.isValidElement v = true → truthy v = true.
Proof. by destruct v. Qed.

Section ViewFacts.

Variable sanitizeRestProps : Props -> Props.
Variable h : Hooks.
Variable props : Props.

(** While loading, the view is the progress bar. *)
Lemma run_view_loading :
  truthy (get "loaded" props) = false →
  run h (ReferenceArrayFieldView sanitizeRestProps props) =
    ([StylesCall props],
     Normal (VElement LinearProgress
               {[ "className" := VStr (progress (styles h props)) ]} [])).
Proof.
  intros Hl. unfold ReferenceArrayFieldView. cbn. by rewrite Hl.
Qed.

(** Once loaded, the view is the fragment of the cloned child, a space and
    the pagination slot; [Children.only] throws when the child is not an
    element.  The class names are not used. *)
Lemma run_view_loaded_any :
  truthy (get "loaded" props) = true →
  run h (ReferenceArrayFieldView sanitizeRestProps props) =
    ([StylesCall props],
     if React.isValidElement (get "children" props) then
       Normal (VElement Fragment ∅
                 [VClone (get "children" props)
                    (<["resource" := get "reference" props]>
                       (<["className" := get "className" props]>
                          (sanitizeRestProps (rest_of props))));
                  VStr " ";
                  pager_slot sanitizeRestProps props])
     else Thrown React.Children.only_error).
Proof.
  intros Hl. unfold ReferenceArrayFieldView, pager_slot.
  cbn. rewrite Hl. cbn. unfold React.Children.only.
  destruct (React.isValidElement (get "children" props)) eqn:Hc; cbn; [|done].
  fold (rest_of props).
  rewrite (truthy_not_nullish (get "children" props))
    by (by apply valid_element_truthy).
  cbn. unfold js_and.
  destruct (truthy (get "pagination" props)) eqn:Hp; cbn.
  - destruct (is_undefined (get "total" props)); cbn; [done|].
    by rewrite (truthy_not_nullish _ _ Hp).
  - by rewrite Hp.
Qed.

Lemma run_view_loaded :
  truthy (get "loaded" props) = true →
  element_child props →
  run h (ReferenceArrayFieldView sanitizeRestProps props) =
    ([StylesCall props],
     Normal (VElement Fragment ∅
               [VClone (get "children" props)
                  (<["resource" := get "reference" props]>
                     (<["className" := get "className" props]>
                        (sanitizeRestProps (rest_of props))));
                VStr " ";
                pager_slot sanitizeRestProps props])).
Proof.
  intros Hl Hc. rewrite (run_view_loaded_any Hl).
  unfold element_child in Hc. by rewrite Hc.
Qed.

(** Under the prop type of [pagination], the slot is the clone exactly when
    pagination is shown, and an empty node otherwise. *)
Lemma pager_slot_typed :
  optional_pagination props →
  pager_slot sanitizeRestProps props =
    if shows_pagination props
    then VClone (get "pagination" props) (sanitizeRestProps (rest_of props))
    else if React.isValidElement (get "pagination" props) then VBool false
    else VUndefined.
Proof.
  unfold optional_pagination, pager_slot, shows_pagination.
  intros [Hu|Hv].
  - by rewrite Hu.
  - rewrite Hv, (valid_element_truthy _ Hv). cbn.
    by destruct (is_undefined (get "total" props)).
Qed.

End ViewFacts.

Section FieldFacts.

Variable props : Props.

(** Without exactly one child the component is the throw alone. *)
Lemma field_not_single (n : nat) :
  React.Children.count (get "children" props) = Normal n →
  n ≠ 1 →
  ReferenceArrayField props = Throw usage_error.
Proof.
  intros Hn Hne. unfold ReferenceArrayField. rewrite Hn. cbn.
  by destruct (Nat.eqb_spec n 1).
Qed.

(** With one child it is one call of the controller hook, whose answer is
    wrapped. *)
Lemma field_single :
  React.Children.count (get "children" props) = Normal 1 →
  ReferenceArrayField props =
    UseReferenceArrayFieldController (controller_options props)
      (fun controllerProps => Ret (provided_view props controllerProps)).
Proof.
  intros Hn. unfold ReferenceArrayField, controller_options. rewrite Hn. cbn.
  unfold get at 3 4. by destruct (props !! "page") as [[]|].
Qed.

Lemma controller_options_dom :
  dom (controller_options props) =
    ({[ "basePath"; "filter"; "page"; "perPage"; "record"; "reference";
        "resource"; "sort"; "source" ]} : gset string).
Proof. unfold controller_options. rewrite !dom_insert_L, dom_singleton_L. set_solver. Qed.

End FieldFacts.

(** ** ReferenceArrayField *)

(** C1.  [ReferenceArrayField] raises an error if and only if the number of
    children it receives differs from one.  When [React.Children.count]
    counts [n] children: for [n] other than one (none, or two or more) the
    render throws the usage error, whatever the hooks would answer; for
    [n = 1] it returns an element; so it throws exactly when [n ≠ 1]. *)
Theorem ReferenceArrayField_throws_iff_not_one_child
    (h : Hooks) (props : Props) (n : nat) :
  React.Children.count (get "children" props) = Normal n →
  (n ≠ 1 → outcome h (ReferenceArrayField props) = Thrown usage_error) ∧
  (n = 1 → ∃ element, outcome h (ReferenceArrayField props) = Normal element) ∧
  ((∃ message, outcome h (ReferenceArrayField props) = Thrown message) ↔ n ≠ 1).
Proof.
  intros Hn.
  assert (Hbad : n ≠ 1 →
            outcome h (ReferenceArrayField props) = Thrown usage_error).
  { intros Hne. by rewrite (field_not_single props n Hn Hne). }
  assert (Hgood : n = 1 →
            ∃ element, outcome h (ReferenceArrayField props) = Normal element).
  { intros ->. rewrite (field_single props Hn). by eexists. }
  split; [done|]. split; [done|]. split.
  - intros [message Hthrown] ->.
    destruct (Hgood eq_refl) as [element Hreturned]. congruence.
  - intros Hne. eexists. by apply Hbad.
Qed.

(** C8.  When the child-count check fails, the error comes before the
    controller hook: the render is the throw itself, so running it calls no
    hook at all, and no controller options are ever built. *)
Theorem ReferenceArrayField_throws_before_controller
    (h : Hooks) (props : Props) (n : nat) :
  React.Children.count (get "children" props) = Normal n →
  n ≠ 1 →
  ReferenceArrayField props = Throw usage_error ∧
  run h (ReferenceArrayField props) = ([], Thrown usage_error) ∧
  (∀ options, ControllerCall options ∉ trace h (ReferenceArrayField props)).
Proof.
  intros Hn Hne. rewrite (field_not_single props n Hn Hne).
  split; [done|]. split; [done|]. intros options. apply not_elem_of_nil.
Qed.

(** C5.  With exactly one child, [ReferenceArrayField] calls the controller
    hook once, and calls no other hook.  The options object has the nine
    properties basePath, filter, page, perPage, record, reference, resource,
    sort and source and no other; each holds the prop of that name, and page
    holds 1 when the caller left it out (a property that is absent reads as
    undefined). *)
Theorem ReferenceArrayField_calls_controller_once
    (h : Hooks) (props : Props) :
  React.Children.count (get "children" props) = Normal 1 →
  ∃ options : Props,
    trace h (ReferenceArrayField props) = [ControllerCall options] ∧
    dom options =
      ({[ "basePath"; "filter"; "page"; "perPage"; "record"; "reference";
          "resource"; "sort"; "source" ]} : gset string) ∧
    (∀ k, k ∈ ["basePath"; "filter"; "perPage"; "record"; "reference";
               "resource"; "sort"; "source"] →
          options !! k = Some (get k props)) ∧
    (props !! "page" = None → options !! "page" = Some (VNum 1)) ∧
    (get "page" props = VUndefined → options !! "page" = Some (VNum 1)) ∧
    (get "page" props ≠ VUndefined →
     options !! "page" = Some (get "page" props)).
Proof.
  intros Hn. exists (controller_options props).
  rewrite (field_single props Hn).
  split; [done|]. split; [apply controller_options_dom|].
  split; [|split; [|split]].
  - intros k Hk. unfold controller_options.
    repeat (apply elem_of_cons in Hk as [->|Hk]; [by simplify_map_eq|]).
    by apply elem_of_nil in Hk.
  - intros Hp. unfold controller_options. rewrite Hp. by simplify_map_eq.
  - intros Hp. unfold controller_options, get in *.
    destruct (props !! "page") as [[]|]; by simplify_map_eq.
  - intros Hp. unfold controller_options, get in *.
    destruct (props !! "page") as [[]|]; by simplify_map_eq.
Qed.

(** C6.  With exactly one child, what [ReferenceArrayField] returns is the
    memoized view inside a list-context provider.  The provider's [value] is
    the very object the controller hook answered, the view's props are the
    component's props overridden by that object, and the provider has no
    other child.  The hook's answer is arbitrary here, so this holds while it
    reports loading as well as once it reports loaded. *)
Theorem ReferenceArrayField_wraps_view_in_provider
    (h : Hooks) (props : Props) :
  React.Children.count (get "children" props) = Normal 1 →
  ∃ options controllerProps : Props,
    trace h (ReferenceArrayField props) = [ControllerCall options] ∧
    controllerProps = controller h options ∧
    outcome h (ReferenceArrayField props) =
      Normal (VElement ListContextProvider
                {[ "value" := VObj controllerProps ]}
                [VElement PureReferenceArrayFieldView
                   (controllerProps ∪ props) []]) ∧
    (∀ k, (controllerProps ∪ props) !! k =
            match controllerProps !! k with
            | Some v => Some v
            | None => props !! k
            end).
Proof.
  intros Hn.
  exists (controller_options props), (controller h (controller_options props)).
  rewrite (field_single props Hn).
  split; [done|]. split; [done|]. split; [done|].
  intros k. rewrite lookup_union.
  by destruct (controller h (controller_options props) !! k), (props !! k).
Qed.

(** ** ReferenceArrayFieldView *)

Lemma is_undefined_spec (v : value) : is_undefined v = true ↔ v = VUndefined.
Proof. by destruct v. Qed.

Lemma get_insert_ne (k k' : string) (v : value) (o : Props) :
  k ≠ k' → get k' (<[k := v]> o) = get k' o.
Proof. intros Hne. unfold get. by rewrite lookup_insert_ne. Qed.

(** C2.  While [loaded] is false (the test is [!props.loaded], so for any
    falsy value), the view calls the styles hook and returns the progress
    bar alone: a [LinearProgress] element without children whose only prop is
    the class name of the [progress] rule, so that this string is all there
    is inside the output.  The child is not looked at:
    whatever stands in [children], an element or not, the output is the same
    progress bar as long as the styles hook gives the same class name. *)
Theorem View_loading_shows_progress_only
    (sanitizeRestProps : Props → Props) (h : Hooks) (props : Props) :
  truthy (get "loaded" props) = false →
  run h (ReferenceArrayFieldView sanitizeRestProps props) =
    ([StylesCall props],
     Normal (VElement LinearProgress
               {[ "className" := VStr (progress (styles h props)) ]} [])) ∧
  (∀ out v,
     outcome h (ReferenceArrayFieldView sanitizeRestProps props) = Normal out →
     part_of v out → v = VStr (progress (styles h props))) ∧
  (∀ (children : value) (h' : Hooks),
     progress (styles h' (<["children" := children]> props))
       = progress (styles h props) →
     outcome h' (ReferenceArrayFieldView sanitizeRestProps
                   (<["children" := children]> props))
       = outcome h (ReferenceArrayFieldView sanitizeRestProps props)).
Proof.
  intros Hl. split; [by apply run_view_loading|]. split.
  - intros out v. unfold outcome. rewrite run_view_loading by done. cbn.
    intros [= <-] Hpart. inversion Hpart as [| |? k ? ? ? Hk|? ? ? ? Hin| |].
    + apply lookup_singleton_Some in Hk as [_ <-]. done.
    + by apply elem_of_nil in Hin.
  - intros children h' Hs. unfold outcome.
    rewrite !run_view_loading; [by rewrite Hs | done |].
    by rewrite get_insert_ne.
Qed.

(** C3.  Once [loaded] is true (truthy), and given an element as child, the
    view returns a fragment whose first child is the clone of that element.
    The props injected into the clone are the sanitized rest, then
    [className], then [resource] set to the [reference] prop, and nothing
    else.  The rest handed to [sanitizeRestProps] is the props bag without
    children, pagination, className and reference, so it still holds the
    controller's [data] and [ids]. *)
Theorem View_loaded_clones_child
    (sanitizeRestProps : Props → Props) (h : Hooks) (props : Props) :
  truthy (get "loaded" props) = true →
  element_child props →
  ∃ (injected : Props) (pager : value),
    outcome h (ReferenceArrayFieldView sanitizeRestProps props) =
      Normal (VElement Fragment ∅
                [VClone (get "children" props) injected; VStr " "; pager]) ∧
    injected =
      <["resource" := get "reference" props]>
        (<["className" := get "className" props]>
           (sanitizeRestProps (rest_of props))) ∧
    injected !! "resource" = Some (get "reference" props) ∧
    injected !! "className" = Some (get "className" props) ∧
    (∀ k, k ≠ "resource" → k ≠ "className" →
          injected !! k = sanitizeRestProps (rest_of props) !! k) ∧
    (∀ k, rest_of props !! k =
            if decide (k ∈ ["children"; "pagination"; "className";
                            "reference"])
            then None else props !! k) ∧
    rest_of props !! "data" = props !! "data" ∧
    rest_of props !! "ids" = props !! "ids".
Proof.
  intros Hl Hc. eexists _, _. unfold outcome.
  rewrite (run_view_loaded _ _ _ Hl Hc).
  split; [done|]. split; [done|].
  split; [by simplify_map_eq|]. split; [by simplify_map_eq|].
  split; [intros k ??; by simplify_map_eq|].
  split; [apply rest_of_lookup|].
  by rewrite !rest_of_lookup.
Qed.

(** C4.  Once [loaded] is true, for a props bag of the declared type (an
    element as child; pagination absent or an element), the third child of
    the fragment is a pagination element if and only if a pagination element
    was given and [total] is not undefined.  It is then the clone of the
    given one; otherwise it is an empty node, for which nothing is
    rendered. *)
Theorem View_pagination_iff_given_and_total_known
    (sanitizeRestProps : Props → Props) (h : Hooks) (props : Props) :
  truthy (get "loaded" props) = true →
  element_child props →
  optional_pagination props →
  ∃ (cloned pager : value),
    outcome h (ReferenceArrayFieldView sanitizeRestProps props) =
      Normal (VElement Fragment ∅ [cloned; VStr " "; pager]) ∧
    cloned = VClone (get "children" props)
               (<["resource" := get "reference" props]>
                  (<["className" := get "className" props]>
                     (sanitizeRestProps (rest_of props)))) ∧
    (React.isValidElement pager = true ↔
       React.isValidElement (get "pagination" props) = true ∧
       get "total" props ≠ VUndefined) ∧
    (React.isValidElement (get "pagination" props) = true →
     get "total" props ≠ VUndefined →
     pager = VClone (get "pagination" props)
               (sanitizeRestProps (rest_of props))) ∧
    (¬ (React.isValidElement (get "pagination" props) = true ∧
        get "total" props ≠ VUndefined) →
     React.isEmptyNode pager = true).
Proof.
  intros Hl Hc Hp. eexists _, _. unfold outcome.
  rewrite (run_view_loaded _ _ _ Hl Hc), (pager_slot_typed _ _ Hp).
  split; [done|]. split; [done|].
  unfold shows_pagination.
  destruct (React.isValidElement (get "pagination" props)) eqn:Hv; cbn.
  - destruct (is_undefined (get "total" props)) eqn:Hu; cbn.
    + apply is_undefined_spec in Hu. intuition congruence.
    + assert (get "total" props ≠ VUndefined)
        by (intros Hu'%is_undefined_spec; congruence).
      intuition congruence.
  - intuition congruence.
Qed.

(** C7, as amended.  Once [loaded] is true, for a props bag of the declared
    type, the view returns a fragment, and what it renders is exactly the
    cloned child, then a text node of one space, then the cloned pagination
    element when one is shown.  The elements among these are the cloned child
    and, when shown, the cloned pagination: no other element is added. *)
Theorem View_loaded_output_exact
    (sanitizeRestProps : Props → Props) (h : Hooks) (props : Props) :
  truthy (get "loaded" props) = true →
  element_child props →
  optional_pagination props →
  ∃ (children : list value) (cloned : value),
    outcome h (ReferenceArrayFieldView sanitizeRestProps props) =
      Normal (VElement Fragment ∅ children) ∧
    cloned = VClone (get "children" props)
               (<["resource" := get "reference" props]>
                  (<["className" := get "className" props]>
                     (sanitizeRestProps (rest_of props)))) ∧
    React.rendered (VElement Fragment ∅ children) =
      cloned :: VStr " " ::
        (if shows_pagination props
         then [VClone (get "pagination" props)
                 (sanitizeRestProps (rest_of props))]
         else []) ∧
    List.filter React.isValidElement
        (React.rendered (VElement Fragment ∅ children)) =
      cloned ::
        (if shows_pagination props
         then [VClone (get "pagination" props)
                 (sanitizeRestProps (rest_of props))]
         else []).
Proof.
  intros Hl Hc Hp. eexists _, _. unfold outcome.
  rewrite (run_view_loaded _ _ _ Hl Hc), (pager_slot_typed _ _ Hp).
  split; [done|]. split; [done|].
  destruct (shows_pagination props); [done|].
  by destruct (React.isValidElement (get "pagination" props)).
Qed.

(** C9.  When the pagination element is shown, its clone is given the
    sanitized rest and nothing more: the child's injected props are the
    pagination's with [className] and [resource] added on top.  For both
    clones [sanitizeRestProps] receives the props bag without children,
    pagination, className and reference.  Hence, for a sanitizer that only
    drops properties, the pagination clone gets no [className], and a
    [resource] it gets can only be the bag's own, never the [reference] the
    child is given. *)
Theorem View_pagination_gets_sanitized_rest_only
    (sanitizeRestProps : Props → Props) (h : Hooks) (props : Props) :
  truthy (get "loaded" props) = true →
  element_child props →
  React.isValidElement (get "pagination" props) = true →
  get "total" props ≠ VUndefined →
  ∃ sanitized : Props,
    sanitized = sanitizeRestProps (rest_of props) ∧
    outcome h (ReferenceArrayFieldView sanitizeRestProps props) =
      Normal (VElement Fragment ∅
                [VClone (get "children" props)
                   (<["resource" := get "reference" props]>
                      (<["className" := get "className" props]> sanitized));
                 VStr " ";
                 VClone (get "pagination" props) sanitized]) ∧
    (∀ k, k ∈ ["children"; "pagination"; "className"; "reference"] →
          rest_of props !! k = None) ∧
    (∀ k, k ∉ ["children"; "pagination"; "className"; "reference"] →
          rest_of props !! k = props !! k) ∧
    (sanitized ⊆ rest_of props →
       sanitized !! "className" = None ∧
       (∀ v, sanitized !! "resource" = Some v →
             props !! "resource" = Some v)).
Proof.
  intros Hl Hc Hv Ht. eexists. split; [done|]. unfold outcome.
  rewrite (run_view_loaded _ _ _ Hl Hc).
  rewrite (pager_slot_typed _ _ (or_intror Hv)).
  unfold shows_pagination. rewrite Hv.
  destruct (is_undefined (get "total" props)) eqn:Hu;
    [by apply is_undefined_spec in Hu|]. cbn.
  split; [done|].
  split; [intros k Hk; by rewrite rest_of_lookup, decide_True|].
  split; [intros k Hk; by rewrite rest_of_lookup, decide_False|].
  intros Hsub. split.
  - apply (lookup_weaken_None _ (rest_of props)); [|done].
    by rewrite rest_of_lookup.
  - intros v Hr. apply (lookup_weaken _ _ _ _ Hr) in Hsub.
    by rewrite rest_of_lookup in Hsub.
Qed.

(** C10, as amended.  The view is deterministic in its props and in the
    class name its styles hook answers.  Take two renders, each in its own
    hook environment, with equal props bags.  Once [loaded] is truthy they
    make the same hook call and complete alike, with the same element or the
    same error, whatever the environments are.  While loading they do so as
    soon as the styles hook answers both with the same [progress] class
    name; nothing else of an environment is looked at. *)
Theorem View_deterministic_given_class_name
    (sanitizeRestProps : Props → Props) (h1 h2 : Hooks)
    (props1 props2 : Props) :
  props1 = props2 →
  (truthy (get "loaded" props1) = false →
   progress (styles h1 props1) = progress (styles h2 props2)) →
  run h1 (ReferenceArrayFieldView sanitizeRestProps props1) =
    run h2 (ReferenceArrayFieldView sanitizeRestProps props2).
Proof.
  intros <- Hs.
  destruct (truthy (get "loaded" props1)) eqn:Hl.
  - by rewrite !run_view_loaded_any.
  - by rewrite !run_view_loading, Hs.
Qed.

(** ** The theorems at the sample order *)

Lemma ReferenceArrayField_throws_iff_not_one_child_witness :
  (React.Children.count (get "children" Sample.no_child) = Normal 0 ∧
   outcome Sample.hooks (ReferenceArrayField Sample.no_child)
     = Thrown usage_error) ∧
  (React.Children.count (get "children" Sample.two_children) = Normal 2 ∧
   outcome Sample.hooks (ReferenceArrayField Sample.two_children)
     = Thrown usage_error) ∧
  (React.Children.count (get "children" Sample.field_props) = Normal 1 ∧
   ∃ element,
     outcome Sample.hooks (ReferenceArrayField Sample.field_props)
       = Normal element).
Proof.
  split; [|split].
  - split; [reflexivity|].
    apply (ReferenceArrayField_throws_iff_not_one_child
             Sample.hooks Sample.no_child 0); [reflexivity | lia].
  - split; [reflexivity|].
    apply (ReferenceArrayField_throws_iff_not_one_child
             Sample.hooks Sample.two_children 2); [reflexivity | lia].
  - split; [reflexivity|].
    apply (ReferenceArrayField_throws_iff_not_one_child
             Sample.hooks Sample.field_props 1); reflexivity.
Defined.

Lemma ReferenceArrayField_throws_before_controller_witness :
  React.Children.count (get "children" Sample.two_children) = Normal 2 ∧
  2 ≠ 1 ∧
  run Sample.hooks (ReferenceArrayField Sample.two_children)
    = ([], Thrown usage_error).
Proof.
  split; [reflexivity|]. split; [lia|].
  apply (ReferenceArrayField_throws_before_controller
           Sample.hooks Sample.two_children 2); [reflexivity | lia].
Defined.

Lemma ReferenceArrayField_calls_controller_once_witness :
  React.Children.count (get "children" Sample.field_props) = Normal 1 ∧
  ∃ options : Props,
    trace Sample.hooks (ReferenceArrayField Sample.field_props)
      = [ControllerCall options] ∧
    dom options =
      ({[ "basePath"; "filter"; "page"; "perPage"; "record"; "reference";
          "resource"; "sort"; "source" ]} : gset string) ∧
    (∀ k, k ∈ ["basePath"; "filter"; "perPage"; "record"; "reference";
               "resource"; "sort"; "source"] →
          options !! k = Some (get k Sample.field_props)) ∧
    (Sample.field_props !! "page" = None →
     options !! "page" = Some (VNum 1)) ∧
    (get "page" Sample.field_props = VUndefined →
     options !! "page" = Some (VNum 1)) ∧
    (get "page" Sample.field_props ≠ VUndefined →
     options !! "page" = Some (get "page" Sample.field_props)).
Proof.
  split; [reflexivity|].
  apply (ReferenceArrayField_calls_controller_once
           Sample.hooks Sample.field_props).
  reflexivity.
Defined.

Lemma ReferenceArrayField_wraps_view_in_provider_witness :
  React.Children.count (get "children" Sample.field_props) = Normal 1 ∧
  outcome Sample.hooks (ReferenceArrayField Sample.field_props) =
    Normal (VElement ListContextProvider {[ "value" := VObj Sample.loaded ]}
              [VElement PureReferenceArrayFieldView Sample.view_loaded []]) ∧
  outcome Sample.hooks_loading (ReferenceArrayField Sample.field_props) =
    Normal (VElement ListContextProvider {[ "value" := VObj Sample.loading ]}
              [VElement PureReferenceArrayFieldView Sample.view_loading []]).
Proof.
  split; [reflexivity|]. split.
  - destruct (ReferenceArrayField_wraps_view_in_provider
                Sample.hooks Sample.field_props)
      as (options & controllerProps & _ & -> & Hout & _);
      [reflexivity | exact Hout].
  - destruct (ReferenceArrayField_wraps_view_in_provider
                Sample.hooks_loading Sample.field_props)
      as (options & controllerProps & _ & -> & Hout & _);
      [reflexivity | exact Hout].
Defined.

Lemma View_loading_shows_progress_only_witness :
  truthy (get "loaded" Sample.view_loading) = false ∧
  run Sample.hooks (ReferenceArrayFieldView Sample.sanitize Sample.view_loading)
    = ([StylesCall Sample.view_loading],
       Normal (VElement LinearProgress
                 {[ "className" := VStr "RaReferenceArrayField-progress-1" ]}
                 [])).
Proof.
  split; [reflexivity|].
  apply (View_loading_shows_progress_only
           Sample.sanitize Sample.hooks Sample.view_loading).
  reflexivity.
Defined.

Lemma View_loaded_clones_child_witness :
  truthy (get "loaded" Sample.view_loaded) = true ∧
  element_child Sample.view_loaded ∧
  ∃ (injected : Props) (pager : value),
    outcome Sample.hooks
        (ReferenceArrayFieldView Sample.sanitize Sample.view_loaded) =
      Normal (VElement Fragment ∅
                [VClone Sample.datagrid injected; VStr " "; pager]) ∧
    injected = {[ "className" := VStr "order-products";
                  "resource" := VStr "products";
                  "loaded" := VBool true;
                  "ids" := VArr [VNum 456; VNum 457; VNum 458];
                  "total" := VNum 3 ]}.
Proof.
  split; [reflexivity|]. split; [reflexivity|].
  destruct (View_loaded_clones_child
              Sample.sanitize Sample.hooks Sample.view_loaded)
    as (injected & pager & Hout & Hinj & _); [reflexivity | reflexivity |].
  exists injected, pager. split; [exact Hout|].
  rewrite Hinj. vm_compute. reflexivity.
Defined.

Lemma View_pagination_iff_given_and_total_known_witness :
  truthy (get "loaded" Sample.view_paginated) = true ∧
  element_child Sample.view_paginated ∧
  optional_pagination Sample.view_paginated ∧
  ∃ (cloned pager : value),
    outcome Sample.hooks
        (ReferenceArrayFieldView Sample.sanitize Sample.view_paginated) =
      Normal (VElement Fragment ∅ [cloned; VStr " "; pager]) ∧
    pager = VClone Sample.pager
              (Sample.sanitize (rest_of Sample.view_paginated)).
Proof.
  split; [reflexivity|]. split; [reflexivity|].
  split; [right; reflexivity|].
  destruct (View_pagination_iff_given_and_total_known
              Sample.sanitize Sample.hooks Sample.view_paginated)
    as (cloned & pager & Hout & _ & _ & Hpager & _);
    [reflexivity | reflexivity | right; reflexivity |].
  exists cloned, pager. split; [exact Hout|].
  apply Hpager; [reflexivity | discriminate].
Defined.

Lemma View_loaded_output_exact_witness :
  truthy (get "loaded" Sample.view_paginated) = true ∧
  element_child Sample.view_paginated ∧
  optional_pagination Sample.view_paginated ∧
  ∃ (children : list value) (cloned : value),
    outcome Sample.hooks
        (ReferenceArrayFieldView Sample.sanitize Sample.view_paginated) =
      Normal (VElement Fragment ∅ children) ∧
    React.rendered (VElement Fragment ∅ children) =
      [cloned; VStr " ";
       VClone Sample.pager (Sample.sanitize (rest_of Sample.view_paginated))].
Proof.
  split; [reflexivity|]. split; [reflexivity|].
  split; [right; reflexivity|].
  destruct (View_loaded_output_exact
              Sample.sanitize Sample.hooks Sample.view_paginated)
    as (children & cloned & Hout & _ & Hrendered & _);
    [reflexivity | reflexivity | right; reflexivity |].
  exists children, cloned. split; [exact Hout | exact Hrendered].
Defined.

(** C7, as the claim has it, fails: the sample view, loaded and without
    pagination, renders the cloned child and then a text node of one space,
    which is neither a lone element nor an element followed by an element.
    With pagination it renders three nodes. *)
Lemma View_loaded_output_has_text_node :
  (∃ out,
     outcome Sample.hooks
         (ReferenceArrayFieldView Sample.sanitize Sample.view_loaded)
       = Normal out ∧
     React.rendered out =
       [VClone Sample.datagrid
          {[ "className" := VStr "order-products";
             "resource" := VStr "products";
             "loaded" := VBool true;
             "ids" := VArr [VNum 456; VNum 457; VNum 458];
             "total" := VNum 3 ]};
        VStr " "] ∧
     ¬ child_then_pagination_only (React.rendered out)) ∧
  (∃ out,
     outcome Sample.hooks
         (ReferenceArrayFieldView Sample.sanitize Sample.view_paginated)
       = Normal out ∧
     length (React.rendered out) = 3 ∧
     ¬ child_then_pagination_only (React.rendered out)).
Proof.
  split.
  - eexists. split; [vm_compute; reflexivity|]. split; [reflexivity|].
    intros [(c & Heq & _) | (c & p & Heq & _ & Hp)].
    + discriminate Heq.
    + injection Heq as _ <-. discriminate Hp.
  - eexists. split; [vm_compute; reflexivity|]. split; [reflexivity|].
    intros [(c & Heq & _) | (c & p & Heq & _)]; discriminate Heq.
Qed.

Lemma View_pagination_gets_sanitized_rest_only_witness :
  truthy (get "loaded" Sample.view_paginated) = true ∧
  element_child Sample.view_paginated ∧
  React.isValidElement (get "pagination" Sample.view_paginated) = true ∧
  get "total" Sample.view_paginated ≠ VUndefined ∧
  ∃ sanitized : Props,
    sanitized = {[ "loaded" := VBool true;
                   "ids" := VArr [VNum 456; VNum 457; VNum 458];
                   "total" := VNum 3 ]} ∧
    outcome Sample.hooks
        (ReferenceArrayFieldView Sample.sanitize Sample.view_paginated) =
      Normal (VElement Fragment ∅
                [VClone Sample.datagrid
                   (<["resource" := VStr "products"]>
                      (<["className" := VStr "order-products"]> sanitized));
                 VStr " ";
                 VClone Sample.pager sanitized]).
Proof.
  split; [reflexivity|]. split; [reflexivity|]. split; [reflexivity|].
  split; [discriminate|].
  destruct (View_pagination_gets_sanitized_rest_only
              Sample.sanitize Sample.hooks Sample.view_paginated)
    as (sanitized & Hs & Hout & _);
    [reflexivity | reflexivity | reflexivity | discriminate |].
  exists sanitized. split; [rewrite Hs; vm_compute; reflexivity | exact Hout].
Defined.

Lemma View_deterministic_given_class_name_witness :
  (Sample.view_loading = Sample.loading ∪ Sample.field_props ∧
   (truthy (get "loaded" Sample.view_loading) = false →
    progress (styles Sample.hooks Sample.view_loading)
      = progress (styles
                    {| controller := fun _ => Sample.loading;
                       styles := styles Sample.hooks |}
                    (Sample.loading ∪ Sample.field_props))) ∧
   run Sample.hooks
       (ReferenceArrayFieldView Sample.sanitize Sample.view_loading)
     = run {| controller := fun _ => Sample.loading;
              styles := styles Sample.hooks |}
         (ReferenceArrayFieldView Sample.sanitize
            (Sample.loading ∪ Sample.field_props))) ∧
  (Sample.view_loaded = Sample.loaded ∪ Sample.field_props ∧
   run Sample.hooks
       (ReferenceArrayFieldView Sample.sanitize Sample.view_loaded)
     = run Sample.hooks_loading
         (ReferenceArrayFieldView Sample.sanitize
            (Sample.loaded ∪ Sample.field_props))).
Proof.
  split.
  - split; [reflexivity|]. split; [intros _; reflexivity|].
    apply (View_deterministic_given_class_name Sample.sanitize);
      [reflexivity | intros _; reflexivity].
  - split; [reflexivity|].
    apply (View_deterministic_given_class_name Sample.sanitize);
      [reflexivity | intros Hl; discriminate Hl].
Defined.

(** C10, as the claim has it, fails: the sample view, while loading, is
    rendered with the same props bag in two hook environments whose styles
    hooks answer different class names, and the two progress bars differ in
    their [className]. *)
Lemma View_loading_output_varies_with_class_name :
  outcome Sample.hooks
      (ReferenceArrayFieldView Sample.sanitize Sample.view_loading)
    = Normal (VElement LinearProgress
                {[ "className" := VStr "RaReferenceArrayField-progress-1" ]}
                []) ∧
  outcome Sample.hooks_loading
      (ReferenceArrayFieldView Sample.sanitize Sample.view_loading)
    = Normal (VElement LinearProgress
                {[ "className" := VStr "RaReferenceArrayField-progress-7" ]}
                []) ∧
  outcome Sample.hooks
      (ReferenceArrayFieldView Sample.sanitize Sample.view_loading)
    ≠ outcome Sample.hooks_loading
        (ReferenceArrayFieldView Sample.sanitize Sample.view_loading).
Proof.
  split; [reflexivity|]. split; [reflexivity|].
  unfold outcome. rewrite !run_view_loading by reflexivity. cbn.
  set (bar := VElement LinearProgress).
  intros Heq. assert (Hneq : ∀ a b : Props,
    Normal (bar a []) = Normal (bar b []) → a !! "className" = b !! "className")
    by (by intros a b [= ->]).
  apply Hneq in Heq. rewrite !lookup_singleton_eq in Heq. discriminate Heq.
Qed.

(** ** Further properties of the two components *)

Lemma valid_element_counts_one (v : value) :
  React.isValidElement v = true → React.Children.count v = Normal 1.
Proof. by destruct v. Qed.

Lemma get_union_l (k : string) (o1 o2 : Props) (v : value) :
  o1 !! k = Some v → get k (o1 ∪ o2) = v.
Proof. intros Hk. unfold get. by rewrite (lookup_union_Some_l _ _ _ _ Hk). Qed.

Lemma get_union_r (k : string) (o1 o2 : Props) :
  o1 !! k = None → get k (o1 ∪ o2) = get k o2.
Proof. intros Hk. unfold get. by rewrite lookup_union_r. Qed.

Lemma rest_of_insert_dropped (k : string) (v : value) (props : Props) :
  k ∈ ["children"; "pagination"; "className"; "reference"] →
  rest_of (<[k := v]> props) = rest_of props.
Proof.
  intros Hk. apply map_eq. intros j. rewrite !rest_of_lookup.
  case_decide as Hj; [done|].
  rewrite lookup_insert_ne; [done|]. by intros ->.
Qed.

Lemma injected_again (o : Props) (c r c' r' : value) :
  <["resource" := r']>
    (<["className" := c']> (<["resource" := r]> (<["className" := c]> o)))
  = <["resource" := r']> (<["className" := c']> o).
Proof.
  apply map_eq. intros k. rewrite !lookup_insert. by repeat case_decide.
Qed.

Lemma view_rejects_non_element
    (sanitizeRestProps : Props → Props) (h : Hooks) (props : Props) :
  truthy (get "loaded" props) = true →
  React.isValidElement (get "children" props) = false →
  outcome h (ReferenceArrayFieldView sanitizeRestProps props)
    = Thrown React.Children.only_error.
Proof.
  intros Hl Hv. unfold outcome. rewrite run_view_loaded_any by done.
  by rewrite Hv.
Qed.

(** X1.  The view throws exactly when it is loaded and its child is not an
    element, and the error is then the one of [React.Children.only]: while
    loading it never throws, and neither [cloneElement] can fail. *)
Theorem View_throws_iff_loaded_without_element_child
    (sanitizeRestProps : Props → Props) (h : Hooks) (props : Props)
    (message : string) :
  outcome h (ReferenceArrayFieldView sanitizeRestProps props) = Thrown message
  ↔ truthy (get "loaded" props) = true ∧
    React.isValidElement (get "children" props) = false ∧
    message = React.Children.only_error.
Proof.
  unfold outcome. destruct (truthy (get "loaded" props)) eqn:Hl.
  - rewrite run_view_loaded_any by done. cbn.
    destruct (React.isValidElement (get "children" props)).
    + split; [discriminate | intros (_ & [=] & _)].
    + split; [intros [= <-]; done | intros (_ & _ & ->); done].
  - rewrite run_view_loading by done. cbn.
    split; [discriminate | intros ([=] & _)].
Qed.

(** X2.  Whatever the props, and whether it shows the progress bar, the
    clones or throws, the view calls the styles hook once, with its whole
    props bag, and calls no other hook. *)
Theorem View_calls_styles_hook_only
    (sanitizeRestProps : Props → Props) (h : Hooks) (props : Props) :
  trace h (ReferenceArrayFieldView sanitizeRestProps props)
    = [StylesCall props].
Proof.
  unfold trace. destruct (truthy (get "loaded" props)) eqn:Hl.
  - by rewrite run_view_loaded_any.
  - by rewrite run_view_loading.
Qed.

(** X3.  Once loaded, the view does not use what the styles hook answers:
    its completion is the same in every hook environment. *)
Theorem View_loaded_ignores_hooks
    (sanitizeRestProps : Props → Props) (h h' : Hooks) (props : Props) :
  truthy (get "loaded" props) = true →
  outcome h (ReferenceArrayFieldView sanitizeRestProps props) =
    outcome h' (ReferenceArrayFieldView sanitizeRestProps props).
Proof. intros Hl. unfold outcome. by rewrite !run_view_loaded_any. Qed.

(** X4.  [className] and [reference] reach the child and nothing else.
    Setting them to other values in a loaded view's props changes the
    [className] and [resource] entries injected into the child; the other
    injected props and the pagination slot stay as they were. *)
Theorem View_className_and_reference_reach_child_only
    (sanitizeRestProps : Props → Props) (h : Hooks) (props : Props)
    (className reference : value) :
  truthy (get "loaded" props) = true →
  element_child props →
  ∃ (injected : Props) (pager : value),
    outcome h (ReferenceArrayFieldView sanitizeRestProps props) =
      Normal (VElement Fragment ∅
                [VClone (get "children" props) injected; VStr " "; pager]) ∧
    outcome h (ReferenceArrayFieldView sanitizeRestProps
                 (<["reference" := reference]>
                    (<["className" := className]> props))) =
      Normal (VElement Fragment ∅
                [VClone (get "children" props)
                   (<["resource" := reference]>
                      (<["className" := className]> injected));
                 VStr " "; pager]).
Proof.
  intros Hl Hc. eexists _, _. unfold outcome.
  rewrite (run_view_loaded _ _ _ Hl Hc). split; [done|].
  set (props' := <["reference" := reference]>
                   (<["className" := className]> props)).
  assert (Hrest : rest_of props' = rest_of props).
  { unfold props'. rewrite !rest_of_insert_dropped; [done | |];
      repeat first [apply list_elem_of_here | apply list_elem_of_further]. }
  assert (Hget : ∀ k, k ≠ "reference" → k ≠ "className" →
                      get k props' = get k props).
  { intros k ??. unfold props'. by rewrite !get_insert_ne. }
  assert (Hcn : get "className" props' = className).
  { unfold props', get. by simplify_map_eq. }
  assert (Hrf : get "reference" props' = reference).
  { unfold props', get. by simplify_map_eq. }
  assert (Hpager : pager_slot sanitizeRestProps props'
                   = pager_slot sanitizeRestProps props).
  { unfold pager_slot. by rewrite Hrest, !Hget. }
  rewrite run_view_loaded.
  - rewrite Hpager, Hrest, Hcn, Hrf, Hget by done.
    by rewrite injected_again.
  - by rewrite Hget.
  - unfold element_child. by rewrite Hget.
Qed.

(** X5.  An error of [React.Children.count] itself, as for a plain object
    given as child, is passed on as it is, before any hook is called: it is
    not turned into the usage error. *)
Theorem ReferenceArrayField_passes_on_count_error
    (h : Hooks) (props : Props) (message : string) :
  React.Children.count (get "children" props) = Thrown message →
  run h (ReferenceArrayField props) = ([], Thrown message).
Proof. intros Hn. unfold ReferenceArrayField. by rewrite Hn. Qed.

Lemma page_default (props : Props) :
  match props !! "page" with
  | None | Some VUndefined => VNum 1
  | Some page => page
  end = if is_undefined (get "page" props) then VNum 1 else get "page" props.
Proof. unfold get. by destruct (props !! "page") as [[]|]. Qed.

Lemma controller_options_agree (props1 props2 : Props) :
  (∀ k, k ∈ ["basePath"; "filter"; "page"; "perPage"; "record"; "reference";
             "resource"; "sort"; "source"] →
        get k props1 = get k props2) →
  controller_options props1 = controller_options props2.
Proof.
  intros Hk. unfold controller_options. rewrite !page_default.
  rewrite !(Hk _)
    by repeat first [apply list_elem_of_here | apply list_elem_of_further].
  done.
Qed.

(** The view's props when the controller's answer leaves a prop alone, and
    when it sets it. *)
Lemma view_loaded_flag (controllerProps props : Props) :
  truthy (get "loaded" controllerProps) = true →
  get "loaded" (controllerProps ∪ props) = get "loaded" controllerProps.
Proof.
  intros Hl. destruct (controllerProps !! "loaded") as [l|] eqn:Hk.
  - rewrite (get_union_l _ _ _ _ Hk). unfold get. by rewrite Hk.
  - unfold get in Hl. by rewrite Hk in Hl.
Qed.

(** X6.  The two components together.  Given an element as child and a
    controller answer that is loaded and sets none of children, className
    and reference, [ReferenceArrayField] returns the provider around a view
    element, and the view rendered with that element's props clones the
    field's own child with [resource] set to the field's [reference] and
    [className] to the field's [className].  Every property of the
    controller's answer other than pagination is in the object handed to
    [sanitizeRestProps]. *)
Theorem ReferenceArrayField_child_gets_reference_and_list
    (sanitizeRestProps : Props → Props) (h : Hooks)
    (props controllerProps : Props) :
  element_child props →
  controllerProps = controller h (controller_options props) →
  truthy (get "loaded" controllerProps) = true →
  controllerProps !! "children" = None →
  controllerProps !! "className" = None →
  controllerProps !! "reference" = None →
  ∃ (viewProps injected : Props) (pager : value),
    outcome h (ReferenceArrayField props) =
      Normal (VElement ListContextProvider
                {[ "value" := VObj controllerProps ]}
                [VElement PureReferenceArrayFieldView viewProps []]) ∧
    outcome h (ReferenceArrayFieldView sanitizeRestProps viewProps) =
      Normal (VElement Fragment ∅
                [VClone (get "children" props) injected; VStr " "; pager]) ∧
    injected !! "resource" = Some (get "reference" props) ∧
    injected !! "className" = Some (get "className" props) ∧
    (∀ k, k ≠ "resource" → k ≠ "className" →
          injected !! k = sanitizeRestProps (rest_of viewProps) !! k) ∧
    (∀ k v, controllerProps !! k = Some v → k ≠ "pagination" →
            rest_of viewProps !! k = Some v).
Proof.
  intros Hc -> Hl Hch Hcn Hrf.
  set (cp := controller h (controller_options props)) in *.
  exists (cp ∪ props). eexists _, _.
  unfold outcome.
  rewrite (field_single props (valid_element_counts_one _ Hc)).
  split; [done|].
  rewrite run_view_loaded.
  - rewrite !get_union_r by done. cbn.
    split; [done|]. split; [by simplify_map_eq|].
    split; [by simplify_map_eq|].
    split; [intros k ??; by simplify_map_eq|].
    intros k v Hk Hp. rewrite rest_of_lookup, decide_False.
    + by apply lookup_union_Some_l.
    + intros Hin. repeat (apply elem_of_cons in Hin as [->|Hin]); try congruence.
      by apply elem_of_nil in Hin.
  - by rewrite view_loaded_flag.
  - unfold element_child. by rewrite get_union_r.
Qed.

(** X7.  The controller's [loaded] flag decides, not a [loaded] prop of the
    caller.  With one child of any kind, the view's props hold the
    controller's [loaded] whenever its answer has one, and the caller's only
    when it has none; so while the controller answers a falsy [loaded] the
    view rendered with these props is the progress bar, whatever the caller
    passed. *)
Theorem ReferenceArrayField_controller_decides_loading
    (sanitizeRestProps : Props → Props) (h : Hooks)
    (props controllerProps : Props) :
  React.Children.count (get "children" props) = Normal 1 →
  controllerProps = controller h (controller_options props) →
  ∃ viewProps : Props,
    outcome h (ReferenceArrayField props) =
      Normal (VElement ListContextProvider
                {[ "value" := VObj controllerProps ]}
                [VElement PureReferenceArrayFieldView viewProps []]) ∧
    get "loaded" viewProps =
      match controllerProps !! "loaded" with
      | Some loaded => loaded
      | None => get "loaded" props
      end ∧
    (∀ loaded, controllerProps !! "loaded" = Some loaded →
       truthy loaded = false →
       outcome h (ReferenceArrayFieldView sanitizeRestProps viewProps) =
         Normal (VElement LinearProgress
                   {[ "className" := VStr (progress (styles h viewProps)) ]}
                   [])).
Proof.
  intros Hn ->. set (cp := controller h (controller_options props)).
  exists (cp ∪ props). unfold outcome. rewrite (field_single props Hn).
  split; [done|].
  assert (Hflag : get "loaded" (cp ∪ props) =
                  match cp !! "loaded" with
                  | Some loaded => loaded
                  | None => get "loaded" props
                  end).
  { destruct (cp !! "loaded") as [l|] eqn:Hk.
    - by apply get_union_l.
    - by apply get_union_r. }
  split; [done|]. intros l Hk Hl.
  rewrite run_view_loading; [done|]. by rewrite Hflag, Hk.
Qed.

(** X8.  A single child that is not an element, such as a text or an array
    of one element, passes the check of [ReferenceArrayField], which calls
    the controller and returns the provider around the view.  The view
    rendered with these props throws the error of [React.Children.only] as
    soon as the controller answers loaded (and leaves [children] alone). *)
Theorem ReferenceArrayField_accepts_child_the_view_rejects
    (sanitizeRestProps : Props → Props) (h : Hooks)
    (props controllerProps : Props) :
  React.Children.count (get "children" props) = Normal 1 →
  React.isValidElement (get "children" props) = false →
  controllerProps = controller h (controller_options props) →
  truthy (get "loaded" controllerProps) = true →
  controllerProps !! "children" = None →
  ∃ viewProps : Props,
    run h (ReferenceArrayField props) =
      ([ControllerCall (controller_options props)],
       Normal (VElement ListContextProvider
                 {[ "value" := VObj controllerProps ]}
                 [VElement PureReferenceArrayFieldView viewProps []])) ∧
    outcome h (ReferenceArrayFieldView sanitizeRestProps viewProps) =
      Thrown React.Children.only_error.
Proof.
  intros Hn Hv -> Hl Hch.
  set (cp := controller h (controller_options props)) in *.
  exists (cp ∪ props). rewrite (field_single props Hn).
  split; [done|].
  apply view_rejects_non_element.
  - by rewrite view_loaded_flag.
  - by rewrite get_union_r.
Qed.

(** X9.  The pagination slot for any value of [pagination], on or off its
    prop type.  In a loaded view with an element as child: a falsy
    [pagination] ([null], [false], ...) is put into the fragment as it is,
    whatever [total] is; a truthy one gives [false] while [total] is
    undefined, and its clone otherwise.  So the slot holds an element exactly
    when [pagination] is truthy and [total] is not undefined. *)
Theorem View_pagination_slot_for_any_value
    (sanitizeRestProps : Props → Props) (h : Hooks) (props : Props) :
  truthy (get "loaded" props) = true →
  element_child props →
  ∃ (cloned pager : value),
    outcome h (ReferenceArrayFieldView sanitizeRestProps props) =
      Normal (VElement Fragment ∅ [cloned; VStr " "; pager]) ∧
    (truthy (get "pagination" props) = false →
     pager = get "pagination" props) ∧
    (truthy (get "pagination" props) = true →
     get "total" props = VUndefined → pager = VBool false) ∧
    (truthy (get "pagination" props) = true →
     get "total" props ≠ VUndefined →
     pager = VClone (get "pagination" props)
               (sanitizeRestProps (rest_of props))) ∧
    (React.isValidElement pager = true ↔
       truthy (get "pagination" props) = true ∧
       get "total" props ≠ VUndefined).
Proof.
  intros Hl Hc. eexists _, _. unfold outcome.
  rewrite (run_view_loaded _ _ _ Hl Hc). split; [done|].
  unfold pager_slot.
  destruct (truthy (get "pagination" props)) eqn:Hp.
  - destruct (is_undefined (get "total" props)) eqn:Hu.
    + apply is_undefined_spec in Hu. cbn. intuition congruence.
    + assert (get "total" props ≠ VUndefined)
        by (intros Hu'%is_undefined_spec; congruence).
      cbn. intuition congruence.
  - assert (React.isValidElement (get "pagination" props) = false).
    { destruct (React.isValidElement (get "pagination" props)) eqn:Hv;
        [|done]. apply valid_element_truthy in Hv. congruence. }
    intuition congruence.
Qed.

(** X10.  [ReferenceArrayField] reads ten props and no other: children and
    the nine it forwards.  Two props bags that agree on these (an absent prop
    agreeing with an undefined one) make the same hook calls and throw the
    same errors, however they differ elsewhere, in className, pagination,
    label and the like. *)
Theorem ReferenceArrayField_reads_ten_props
    (h : Hooks) (props1 props2 : Props) :
  (∀ k, k ∈ ["children"; "basePath"; "filter"; "page"; "perPage"; "record";
             "reference"; "resource"; "sort"; "source"] →
        get k props1 = get k props2) →
  trace h (ReferenceArrayField props1) = trace h (ReferenceArrayField props2) ∧
  (∀ message,
     outcome h (ReferenceArrayField props1) = Thrown message ↔
     outcome h (ReferenceArrayField props2) = Thrown message).
Proof.
  intros Hk.
  assert (Hch : get "children" props1 = get "children" props2)
    by (apply Hk; apply list_elem_of_here).
  assert (Hopt : controller_options props1 = controller_options props2).
  { apply controller_options_agree. intros k Hin. apply Hk. by right. }
  unfold trace, outcome.
  destruct (React.Children.count (get "children" props1)) as [n|e] eqn:Hn.
  - destruct (decide (n = 1)) as [->|Hne].
    + rewrite (field_single props1 Hn).
      rewrite Hch in Hn. rewrite (field_single props2 Hn), Hopt. done.
    + rewrite (field_not_single props1 n Hn Hne).
      rewrite Hch in Hn. by rewrite (field_not_single props2 n Hn Hne).
  - unfold ReferenceArrayField. rewrite <- Hch, Hn. done.
Qed.

Lemma lookup_resolveDefaultProps (props : Props) (k : string) :
  resolveDefaultProps ReferenceArrayField_defaultProps props !! k =
    if decide (k = "addLabel") then
      match props !! k with
      | None | Some VUndefined => Some (VBool true)
      | p => p
      end
    else props !! k.
Proof.
  unfold resolveDefaultProps, ReferenceArrayField_defaultProps.
  rewrite lookup_merge. case_decide as Hk.
  - subst k. rewrite lookup_singleton_eq.
    by destruct (props !! "addLabel") as [[]|].
  - rewrite lookup_singleton_ne by done. by destruct (props !! k).
Qed.

(** X11.  The default props.  Resolving them sets [addLabel] to true
    exactly when the caller left it undefined and touches no other prop; as
    [addLabel] is not among the props [ReferenceArrayField] reads, the hook
    calls and the errors are the same with and without the default. *)
Theorem defaultProps_only_set_addLabel (h : Hooks) (props : Props) :
  get "addLabel" (resolveDefaultProps ReferenceArrayField_defaultProps props)
    = (if is_undefined (get "addLabel" props) then VBool true
       else get "addLabel" props) ∧
  (∀ k, k ≠ "addLabel" →
     resolveDefaultProps ReferenceArrayField_defaultProps props !! k
       = props !! k) ∧
  trace h (ReferenceArrayField
             (resolveDefaultProps ReferenceArrayField_defaultProps props))
    = trace h (ReferenceArrayField props) ∧
  (∀ message,
     outcome h (ReferenceArrayField
                  (resolveDefaultProps ReferenceArrayField_defaultProps props))
       = Thrown message ↔
     outcome h (ReferenceArrayField props) = Thrown message).
Proof.
  assert (Hother : ∀ k, k ≠ "addLabel" →
            resolveDefaultProps ReferenceArrayField_defaultProps props !! k
              = props !! k).
  { intros k Hk. by rewrite lookup_resolveDefaultProps, decide_False. }
  split; [|split; [done|]].
  - unfold get. rewrite lookup_resolveDefaultProps, decide_True by done.
    by destruct (props !! "addLabel") as [[]|].
  - assert (Hsame : ∀ k,
              k ∈ ["children"; "basePath"; "filter"; "page"; "perPage";
                   "record"; "reference"; "resource"; "sort"; "source"] →
              get k (resolveDefaultProps ReferenceArrayField_defaultProps props)
                = get k props).
    { intros k Hin. unfold get. rewrite Hother; [done|]. intros ->.
      repeat (apply elem_of_cons in Hin as [?|Hin]; [done|]).
      by apply elem_of_nil in Hin. }
    unfold trace, outcome.
    assert (Hch := Hsame "children" ltac:(apply list_elem_of_here)).
    assert (Hopt : controller_options
                     (resolveDefaultProps ReferenceArrayField_defaultProps props)
                   = controller_options props).
    { apply controller_options_agree. intros k Hin. apply Hsame. by right. }
    destruct (React.Children.count (get "children" props)) as [n|e] eqn:Hn.
    + destruct (decide (n = 1)) as [->|Hne].
      * rewrite (field_single props Hn). rewrite <- Hch in Hn.
        by rewrite (field_single _ Hn), Hopt.
      * rewrite (field_not_single props n Hn Hne). rewrite <- Hch in Hn.
        by rewrite (field_not_single _ n Hn Hne).
    + unfold ReferenceArrayField. by rewrite Hch, Hn.
Qed.

(** ** The further properties at the sample data *)

Lemma View_loaded_ignores_hooks_witness :
  truthy (get "loaded" Sample.view_loaded) = true ∧
  outcome Sample.hooks
      (ReferenceArrayFieldView Sample.sanitize Sample.view_loaded)
    = outcome Sample.hooks_loading
        (ReferenceArrayFieldView Sample.sanitize Sample.view_loaded).
Proof.
  split; [reflexivity|].
  apply (View_loaded_ignores_hooks Sample.sanitize). reflexivity.
Defined.

Lemma View_className_and_reference_reach_child_only_witness :
  truthy (get "loaded" Sample.view_paginated) = true ∧
  element_child Sample.view_paginated ∧
  ∃ (injected : Props) (pager : value),
    outcome Sample.hooks
        (ReferenceArrayFieldView Sample.sanitize Sample.view_paginated) =
      Normal (VElement Fragment ∅
                [VClone Sample.datagrid injected; VStr " "; pager]) ∧
    outcome Sample.hooks
        (ReferenceArrayFieldView Sample.sanitize
           (<["reference" := VStr "items"]>
              (<["className" := VStr "wide"]> Sample.view_paginated))) =
      Normal (VElement Fragment ∅
                [VClone Sample.datagrid
                   (<["resource" := VStr "items"]>
                      (<["className" := VStr "wide"]> injected));
                 VStr " "; pager]).
Proof.
  split; [reflexivity|]. split; [reflexivity|].
  apply (View_className_and_reference_reach_child_only
           Sample.sanitize Sample.hooks Sample.view_paginated
           (VStr "wide") (VStr "items")); reflexivity.
Defined.

Lemma ReferenceArrayField_passes_on_count_error_witness :
  React.Children.count (get "children" Edge.object_child)
    = Thrown React.invalid_child ∧
  run Sample.hooks (ReferenceArrayField Edge.object_child)
    = ([], Thrown React.invalid_child).
Proof.
  split; [reflexivity|].
  apply (ReferenceArrayField_passes_on_count_error
           Sample.hooks Edge.object_child).
  reflexivity.
Defined.

Lemma ReferenceArrayField_child_gets_reference_and_list_witness :
  element_child Sample.field_props ∧
  truthy (get "loaded" Sample.loaded) = true ∧
  ∃ (viewProps injected : Props) (pager : value),
    outcome Sample.hooks (ReferenceArrayField Sample.field_props) =
      Normal (VElement ListContextProvider {[ "value" := VObj Sample.loaded ]}
                [VElement PureReferenceArrayFieldView viewProps []]) ∧
    outcome Sample.hooks
        (ReferenceArrayFieldView Sample.sanitize viewProps) =
      Normal (VElement Fragment ∅
                [VClone Sample.datagrid injected; VStr " "; pager]) ∧
    injected !! "resource" = Some (VStr "products") ∧
    injected !! "className" = Some (VStr "order-products") ∧
    rest_of viewProps !! "ids"
      = Some (VArr [VNum 456; VNum 457; VNum 458]).
Proof.
  split; [reflexivity|]. split; [reflexivity|].
  destruct (ReferenceArrayField_child_gets_reference_and_list
              Sample.sanitize Sample.hooks Sample.field_props Sample.loaded)
    as (viewProps & injected & pager & Hfield & Hview & Hres & Hcls & _
        & Hrest);
    [reflexivity | reflexivity | reflexivity | reflexivity | reflexivity
    | reflexivity |].
  exists viewProps, injected, pager.
  split; [exact Hfield|]. split; [exact Hview|].
  split; [exact Hres|]. split; [exact Hcls|].
  apply Hrest; [reflexivity | discriminate].
Defined.

Lemma ReferenceArrayField_controller_decides_loading_witness :
  React.Children.count (get "children" Edge.caller_loaded) = Normal 1 ∧
  get "loaded" Edge.caller_loaded = VBool true ∧
  ∃ viewProps : Props,
    outcome Sample.hooks_loading (ReferenceArrayField Edge.caller_loaded) =
      Normal (VElement ListContextProvider {[ "value" := VObj Sample.loading ]}
                [VElement PureReferenceArrayFieldView viewProps []]) ∧
    get "loaded" viewProps = VBool false ∧
    outcome Sample.hooks_loading
        (ReferenceArrayFieldView Sample.sanitize viewProps) =
      Normal (VElement LinearProgress
                {[ "className" := VStr "RaReferenceArrayField-progress-7" ]}
                []).
Proof.
  split; [reflexivity|]. split; [reflexivity|].
  destruct (ReferenceArrayField_controller_decides_loading
              Sample.sanitize Sample.hooks_loading Edge.caller_loaded
              Sample.loading)
    as (viewProps & Hfield & Hflag & Hview); [reflexivity | reflexivity |].
  exists viewProps. split; [exact Hfield|]. split; [exact Hflag|].
  apply (Hview (VBool false)); reflexivity.
Defined.

Lemma ReferenceArrayField_accepts_child_the_view_rejects_witness :
  (React.Children.count (get "children" Edge.text_child) = Normal 1 ∧
   React.isValidElement (get "children" Edge.text_child) = false ∧
   ∃ viewProps : Props,
     run Sample.hooks (ReferenceArrayField Edge.text_child) =
       ([ControllerCall (controller_options Edge.text_child)],
        Normal (VElement ListContextProvider
                  {[ "value" := VObj Sample.loaded ]}
                  [VElement PureReferenceArrayFieldView viewProps []])) ∧
     outcome Sample.hooks
         (ReferenceArrayFieldView Sample.sanitize viewProps) =
       Thrown React.Children.only_error) ∧
  (React.Children.count (get "children" Edge.array_child) = Normal 1 ∧
   React.isValidElement (get "children" Edge.array_child) = false ∧
   ∃ viewProps : Props,
     run Sample.hooks (ReferenceArrayField Edge.array_child) =
       ([ControllerCall (controller_options Edge.array_child)],
        Normal (VElement ListContextProvider
                  {[ "value" := VObj Sample.loaded ]}
                  [VElement PureReferenceArrayFieldView viewProps []])) ∧
     outcome Sample.hooks
         (ReferenceArrayFieldView Sample.sanitize viewProps) =
       Thrown React.Children.only_error).
Proof.
  split.
  - split; [reflexivity|]. split; [reflexivity|].
    apply (ReferenceArrayField_accepts_child_the_view_rejects
             Sample.sanitize Sample.hooks Edge.text_child Sample.loaded);
      reflexivity.
  - split; [reflexivity|]. split; [reflexivity|].
    apply (ReferenceArrayField_accepts_child_the_view_rejects
             Sample.sanitize Sample.hooks Edge.array_child Sample.loaded);
      reflexivity.
Defined.

Lemma View_pagination_slot_for_any_value_witness :
  truthy (get "loaded" Edge.view_unpaginated) = true ∧
  element_child Edge.view_unpaginated ∧
  ∃ (cloned pager : value),
    outcome Sample.hooks
        (ReferenceArrayFieldView Sample.sanitize Edge.view_unpaginated) =
      Normal (VElement Fragment ∅ [cloned; VStr " "; pager]) ∧
    pager = VBool false.
Proof.
  split; [reflexivity|]. split; [reflexivity|].
  destruct (View_pagination_slot_for_any_value
              Sample.sanitize Sample.hooks Edge.view_unpaginated)
    as (cloned & pager & Hout & Hfalsy & _); [reflexivity | reflexivity |].
  exists cloned, pager. split; [exact Hout|].
  rewrite Hfalsy; reflexivity.
Defined.

Lemma ReferenceArrayField_reads_ten_props_witness :
  (∀ k, k ∈ ["children"; "basePath"; "filter"; "page"; "perPage"; "record";
             "reference"; "resource"; "sort"; "source"] →
        get k Sample.field_props
          = get k (<["pagination" := Sample.pager]>
                     (<["className" := VStr "wide"]> Sample.field_props))) ∧
  trace Sample.hooks (ReferenceArrayField Sample.field_props)
    = trace Sample.hooks
        (ReferenceArrayField
           (<["pagination" := Sample.pager]>
              (<["className" := VStr "wide"]> Sample.field_props))).
Proof.
  assert (Hagree :
    ∀ k, k ∈ ["children"; "basePath"; "filter"; "page"; "perPage"; "record";
               "reference"; "resource"; "sort"; "source"] →
         get k Sample.field_props
           = get k (<["pagination" := Sample.pager]>
                      (<["className" := VStr "wide"]> Sample.field_props))).
  { intros k Hin.
    repeat (apply elem_of_cons in Hin as [->|Hin]; [reflexivity|]).
    by apply elem_of_nil in Hin. }
  split; [exact Hagree|].
  apply (ReferenceArrayField_reads_ten_props Sample.hooks _ _ Hagree).
Defined.
